(** * Deployment configurations of the Mars protocol (scripts/deploy_configs.ts)

    The TypeScript module exports three object literals, [testnet], [bombay]
    and [local], each of type [Config].  They are embedded below field by
    field: JS numbers that count blocks or seconds are [Z], decimal and
    integer amounts stay the strings they are in the source, and a field
    whose value may be [undefined] is an [option]. *)

From Stdlib Require Import ZArith QArith String Ascii List.
From stdpp Require Import base option list strings gmap.

Local Open Scope string_scope.
Local Open Scope Z_scope.

(** ** Data model *)

(** An address is a bech32 string, or [undefined] while the contract it
    names is not deployed yet. *)
Definition Address : Type := option string.

Module Council.
Record Config := mkConfig {
  address_provider_address : Address;
  proposal_voting_period : Z;
  proposal_effective_delay : Z;
  proposal_expiration_period : Z;
  proposal_required_deposit : string;
  proposal_required_quorum : string;
  proposal_required_threshold : string
}.
Record InitMsg := mkInitMsg { config : Config }.
End Council.

Module Staking.
Record Config := mkConfig {
  owner : Address;
  address_provider_address : Address;
  astroport_factory_address : Address;
  astroport_max_spread : string;
  cooldown_duration : Z;
  unstake_window : Z
}.
Record InitMsg := mkInitMsg { config : Config }.
End Staking.

(** The safety fund and the treasury take the same message. *)
Module FeeShare.
Record InitMsg := mkInitMsg {
  owner : Address;
  astroport_factory_address : Address;
  astroport_max_spread : string
}.
End FeeShare.

Module RewardsCollector.
Record Config := mkConfig {
  owner : Address;
  address_provider_address : Address;
  safety_fund_fee_share : string;
  treasury_fee_share : string;
  astroport_factory_address : Address;
  astroport_max_spread : string
}.
Record InitMsg := mkInitMsg { config : Config }.
End RewardsCollector.

Module RedBank.
Record Config := mkConfig {
  owner : Address;
  address_provider_address : Address;
  ma_token_code_id : option Z;
  close_factor : string
}.
Record InitMsg := mkInitMsg { config : Config }.
End RedBank.

(** The object under the key ["dynamic"] of an interest rate strategy. *)
Record DynamicParams := mkDynamic {
  min_borrow_rate : string;
  max_borrow_rate : string;
  kp_1 : string;
  optimal_utilization_rate : string;
  kp_augmentation_threshold : string;
  kp_2 : string
}.

(** [{ "dynamic": { ... } }]: the only variant the literals use. *)
Inductive InterestRateStrategy :=
  | dynamic (p : DynamicParams).

Record InitParams := mkInitParams {
  initial_borrow_rate : string;
  max_loan_to_value : string;
  reserve_factor : string;
  liquidation_threshold : string;
  liquidation_bonus : string;
  interest_rate_strategy : InterestRateStrategy;
  active : bool;
  deposit_enabled : bool;
  borrow_enabled : bool
}.

(** An entry of [initialAssets] names a native coin by [denom], or a CW20
    token by [symbol] and [contract_addr]. *)
Inductive Asset :=
  | NativeAsset (denom : string) (params : InitParams)
  | Cw20Asset (symbol : string) (contract_addr : Address) (params : InitParams).

Definition init_params (a : Asset) : InitParams :=
  match a with
  | NativeAsset _ p => p
  | Cw20Asset _ _ p => p
  end.

Definition denom (a : Asset) : option string :=
  match a with
  | NativeAsset d _ => Some d
  | Cw20Asset _ _ _ => None
  end.

Definition strategy_params (s : InterestRateStrategy) : DynamicParams :=
  match s with dynamic p => p end.

Record Config := mkConfig {
  councilInitMsg : Council.InitMsg;
  stakingInitMsg : Staking.InitMsg;
  safetyFundInitMsg : FeeShare.InitMsg;
  treasuryInitMsg : FeeShare.InitMsg;
  protocolRewardsCollectorInitMsg : RewardsCollector.InitMsg;
  redBankInitMsg : RedBank.InitMsg;
  initialAssets : list Asset;
  mirFarmingStratContractAddress : Address;
  ancFarmingStratContractAddress : Address;
  marsFarmingStratContractAddress : Address;
  minterProxyContractAddress : Address;
  marsTokenContractAddress : Address;
  oracleFactoryAddress : Address
}.

(** ** The three exported literals *)

Definition terra_factory : string := "terra18qpjm4zkvqnpjpw0zn0tdr8gdzvt8au35v45xf".

Definition uusd_params : InitParams :=
  {| initial_borrow_rate := "0.2";
     max_loan_to_value := "0.75";
     reserve_factor := "0.2";
     liquidation_threshold := "0.85";
     liquidation_bonus := "0.1";
     interest_rate_strategy := dynamic
       {| min_borrow_rate := "0.0";
          max_borrow_rate := "1.0";
          kp_1 := "0.04";
          optimal_utilization_rate := "0.9";
          kp_augmentation_threshold := "0.15";
          kp_2 := "0.07" |};
     active := true;
     deposit_enabled := true;
     borrow_enabled := true |}.

Definition uluna_params : InitParams :=
  {| initial_borrow_rate := "0.1";
     max_loan_to_value := "0.55";
     reserve_factor := "0.2";
     liquidation_threshold := "0.65";
     liquidation_bonus := "0.1";
     interest_rate_strategy := dynamic
       {| min_borrow_rate := "0.0";
          max_borrow_rate := "2.0";
          kp_1 := "0.02";
          optimal_utilization_rate := "0.7";
          kp_augmentation_threshold := "0.15";
          kp_2 := "0.05" |};
     active := true;
     deposit_enabled := true;
     borrow_enabled := true |}.

(** MIR and MARS carry these values in both networks that list them. *)
Definition mir_params : InitParams :=
  {| initial_borrow_rate := "0.07";
     max_loan_to_value := "0.45";
     reserve_factor := "0.2";
     liquidation_threshold := "0.55";
     liquidation_bonus := "0.15";
     interest_rate_strategy := dynamic
       {| min_borrow_rate := "0.0";
          max_borrow_rate := "2.0";
          kp_1 := "0.02";
          optimal_utilization_rate := "0.5";
          kp_augmentation_threshold := "0.15";
          kp_2 := "0.05" |};
     active := true;
     deposit_enabled := true;
     borrow_enabled := true |}.

Definition anc_params : InitParams :=
  {| initial_borrow_rate := "0.07";
     max_loan_to_value := "0.35";
     reserve_factor := "0.2";
     liquidation_threshold := "0.45";
     liquidation_bonus := "0.15";
     interest_rate_strategy := dynamic
       {| min_borrow_rate := "0.0";
          max_borrow_rate := "2.0";
          kp_1 := "0.02";
          optimal_utilization_rate := "0.5";
          kp_augmentation_threshold := "0.15";
          kp_2 := "0.05" |};
     active := true;
     deposit_enabled := true;
     borrow_enabled := true |}.

Definition mars_params : InitParams := mir_params.

Definition testnet : Config :=
  {| councilInitMsg := Council.mkInitMsg
       {| Council.address_provider_address := None;
          Council.proposal_voting_period := 20;
          Council.proposal_effective_delay := 0;
          Council.proposal_expiration_period := 115200;
          Council.proposal_required_deposit := "100000000";
          Council.proposal_required_quorum := "0.1";
          Council.proposal_required_threshold := "0.5" |};
     stakingInitMsg := Staking.mkInitMsg
       {| Staking.owner := None;
          Staking.address_provider_address := None;
          Staking.astroport_factory_address := Some terra_factory;
          Staking.astroport_max_spread := "0.05";
          Staking.cooldown_duration := 90;
          Staking.unstake_window := 300 |};
     safetyFundInitMsg :=
       {| FeeShare.owner := None;
          FeeShare.astroport_factory_address := Some terra_factory;
          FeeShare.astroport_max_spread := "0.05" |};
     treasuryInitMsg :=
       {| FeeShare.owner := None;
          FeeShare.astroport_factory_address := Some terra_factory;
          FeeShare.astroport_max_spread := "0.05" |};
     protocolRewardsCollectorInitMsg := RewardsCollector.mkInitMsg
       {| RewardsCollector.owner := None;
          RewardsCollector.address_provider_address := None;
          RewardsCollector.safety_fund_fee_share := "0.1";
          RewardsCollector.treasury_fee_share := "0.2";
          RewardsCollector.astroport_factory_address := Some terra_factory;
          RewardsCollector.astroport_max_spread := "0.05" |};
     redBankInitMsg := RedBank.mkInitMsg
       {| RedBank.owner := None;
          RedBank.address_provider_address := None;
          RedBank.ma_token_code_id := None;
          RedBank.close_factor := "0.5" |};
     initialAssets :=
       [ NativeAsset "uusd" uusd_params;
         NativeAsset "uluna" uluna_params;
         Cw20Asset "MIR" (Some "terra10llyp6v3j3her8u3ce66ragytu45kcmd9asj3u") mir_params;
         Cw20Asset "ANC" (Some "terra1747mad58h0w4y589y3sk84r5efqdev9q4r02pc") anc_params;
         Cw20Asset "MARS" None mars_params ];
     mirFarmingStratContractAddress := None;
     ancFarmingStratContractAddress := None;
     marsFarmingStratContractAddress := None;
     minterProxyContractAddress := None;
     marsTokenContractAddress := None;
     oracleFactoryAddress := Some terra_factory |}.

(** [bombay] has the ANC entry commented out and MARS resolved. *)
Definition bombay : Config :=
  {| councilInitMsg := Council.mkInitMsg
       {| Council.address_provider_address := None;
          Council.proposal_voting_period := 20;
          Council.proposal_effective_delay := 0;
          Council.proposal_expiration_period := 115200;
          Council.proposal_required_deposit := "100000000";
          Council.proposal_required_quorum := "0.1";
          Council.proposal_required_threshold := "0.5" |};
     stakingInitMsg := Staking.mkInitMsg
       {| Staking.owner := None;
          Staking.address_provider_address := None;
          Staking.astroport_factory_address := Some terra_factory;
          Staking.astroport_max_spread := "0.05";
          Staking.cooldown_duration := 90;
          Staking.unstake_window := 300 |};
     safetyFundInitMsg :=
       {| FeeShare.owner := None;
          FeeShare.astroport_factory_address := Some terra_factory;
          FeeShare.astroport_max_spread := "0.05" |};
     treasuryInitMsg :=
       {| FeeShare.owner := None;
          FeeShare.astroport_factory_address := Some terra_factory;
          FeeShare.astroport_max_spread := "0.05" |};
     protocolRewardsCollectorInitMsg := RewardsCollector.mkInitMsg
       {| RewardsCollector.owner := None;
          RewardsCollector.address_provider_address := None;
          RewardsCollector.safety_fund_fee_share := "0.1";
          RewardsCollector.treasury_fee_share := "0.2";
          RewardsCollector.astroport_factory_address := Some terra_factory;
          RewardsCollector.astroport_max_spread := "0.05" |};
     redBankInitMsg := RedBank.mkInitMsg
       {| RedBank.owner := None;
          RedBank.address_provider_address := None;
          RedBank.ma_token_code_id := None;
          RedBank.close_factor := "0.5" |};
     initialAssets :=
       [ NativeAsset "uusd" uusd_params;
         NativeAsset "uluna" uluna_params;
         Cw20Asset "MIR" (Some "terra10llyp6v3j3her8u3ce66ragytu45kcmd9asj3u") mir_params;
         Cw20Asset "MARS" (Some "terra1qs7h830ud0a4hj72yr8f7jmlppyx7z524f7gw6") mars_params ];
     mirFarmingStratContractAddress := None;
     ancFarmingStratContractAddress := None;
     marsFarmingStratContractAddress := None;
     minterProxyContractAddress := Some "terra1hfyg0tvuqd5kk4un4luqng2adc88lgt5skxmve";
     marsTokenContractAddress := Some "terra1qs7h830ud0a4hj72yr8f7jmlppyx7z524f7gw6";
     oracleFactoryAddress := Some terra_factory |}.

Definition local : Config :=
  {| councilInitMsg := Council.mkInitMsg
       {| Council.address_provider_address := None;
          Council.proposal_voting_period := 1000;
          Council.proposal_effective_delay := 150;
          Council.proposal_expiration_period := 3000;
          Council.proposal_required_deposit := "100000000";
          Council.proposal_required_quorum := "0.1";
          Council.proposal_required_threshold := "0.5" |};
     stakingInitMsg := Staking.mkInitMsg
       {| Staking.owner := None;
          Staking.address_provider_address := None;
          Staking.astroport_factory_address := None;
          Staking.astroport_max_spread := "0.05";
          Staking.cooldown_duration := 10;
          Staking.unstake_window := 300 |};
     safetyFundInitMsg :=
       {| FeeShare.owner := None;
          FeeShare.astroport_factory_address := None;
          FeeShare.astroport_max_spread := "0.05" |};
     treasuryInitMsg :=
       {| FeeShare.owner := None;
          FeeShare.astroport_factory_address := Some terra_factory;
          FeeShare.astroport_max_spread := "0.05" |};
     protocolRewardsCollectorInitMsg := RewardsCollector.mkInitMsg
       {| RewardsCollector.owner := None;
          RewardsCollector.address_provider_address := None;
          RewardsCollector.safety_fund_fee_share := "0.1";
          RewardsCollector.treasury_fee_share := "0.2";
          RewardsCollector.astroport_factory_address := None;
          RewardsCollector.astroport_max_spread := "0.05" |};
     redBankInitMsg := RedBank.mkInitMsg
       {| RedBank.owner := None;
          RedBank.address_provider_address := None;
          RedBank.ma_token_code_id := None;
          RedBank.close_factor := "0.5" |};
     initialAssets := [];
     mirFarmingStratContractAddress := None;
     ancFarmingStratContractAddress := None;
     marsFarmingStratContractAddress := None;
     minterProxyContractAddress := None;
     marsTokenContractAddress := None;
     oracleFactoryAddress := None |}.

(** The module's exports, in source order, under their export names. *)
Definition exports : list (string * Config) :=
  [ ("testnet", testnet); ("bombay", bombay); ("local", local) ].

(** ** Decimal strings

    The fields that hold fractions are strings such as ["0.75"].  The
    module never reads them; the definitions of this part, up to
    [parseInteger], give them their value as exact rationals: an optional
    minus sign, one or more digits and, optionally, a point followed by one
    or more digits. *)

(** The value of a character ['0'] to ['9']. *)
Definition digit_of (c : ascii) : option Z :=
  let n := Z.of_N (N_of_ascii c) in
  if (48 <=? n) && (n <=? 57) then Some (n - 48) else None.

(** The number a run of digits writes in base ten, after [acc]. *)
Fixpoint parse_digits (s : string) (acc : Z) : option Z :=
  match s with
  | EmptyString => Some acc
  | String c rest =>
      match digit_of c with
      | Some d => parse_digits rest (10 * acc + d)
      | None => None
      end
  end.

(** The text before the first point, and the text after it if there is one. *)
Fixpoint split_point (s : string) : string * option string :=
  match s with
  | EmptyString => (EmptyString, None)
  | String c rest =>
      if Ascii.eqb c "."%char then (EmptyString, Some rest)
      else let '(i, f) := split_point rest in (String c i, f)
  end.

(** Digits, then optionally a point and more digits; [n # 10^k] for [k]
    digits after the point. *)
Definition parse_unsigned (s : string) : option Q :=
  match split_point s with
  | (EmptyString, _) => None
  | (i, None) => n ← parse_digits i 0; Some (n # 1)
  | (_, Some EmptyString) => None
  | (i, Some f) =>
      n ← parse_digits (i ++ f) 0;
      Some (n # Pos.pow 10 (Pos.of_nat (String.length f)))
  end.

(** Modelled from the spec: the reading of a decimal string as an exact
    rational, which the TypeScript module leaves to the contracts that
    receive the strings. *)
Definition parseDecimal (s : string) : option Q :=
  match s with
  | String "-" rest => Qopp <$> parse_unsigned rest
  | _ => parse_unsigned s
  end.

(** Modelled from the spec: an integer string (a token amount in base
    units) is a non-empty run of digits. *)
Definition parseInteger (s : string) : option Z :=
  match s with
  | EmptyString => None
  | _ => parse_digits s 0
  end.

(** [s] is a decimal string whose value is [q]. *)
Definition decimal_is (s : string) (q : Q) : Prop :=
  exists v, parseDecimal s = Some v /\ (v == q)%Q.

(** Two decimal strings, or a decimal string and a rational, compared by
    value.  A string that does not parse satisfies none of them. *)
Definition dec_lt (s t : string) : Prop :=
  exists a b, parseDecimal s = Some a /\ parseDecimal t = Some b /\ (a < b)%Q.

Definition dec_le (s t : string) : Prop :=
  exists a b, parseDecimal s = Some a /\ parseDecimal t = Some b /\ (a <= b)%Q.

Definition dec_below (s : string) (q : Q) : Prop :=
  exists a, parseDecimal s = Some a /\ (a < q)%Q.

Definition dec_above (s : string) (q : Q) : Prop :=
  exists a, parseDecimal s = Some a /\ (q < a)%Q.

Definition dec_sum_at_most (s t : string) (q : Q) : Prop :=
  exists a b, parseDecimal s = Some a /\ parseDecimal t = Some b /\ (a + b <= q)%Q.

(** Boolean comparison of rationals, and of decimal strings. *)
Definition Qlt_bool (a b : Q) : bool := negb (Qle_bool b a).

Definition dec_test (f : Q -> bool) (s : string) : bool :=
  match parseDecimal s with
  | Some a => f a
  | None => false
  end.

Definition dec_test2 (f : Q -> Q -> bool) (s t : string) : bool :=
  match parseDecimal s, parseDecimal t with
  | Some a, Some b => f a b
  | _, _ => false
  end.

(** ** The registry *)

Abbreviation EnvironmentId := string.

Inductive LookupError :=
  | UnknownEnvironment.

(** Modelled from the spec: the mapping from environment identifier to
    [Config] (section 2); the module itself only exports the three
    literals. *)
Definition registry : gmap string Config := list_to_map exports.

(** Modelled from the spec: [getConfig] (section 4.1), which the module
    does not define: a lookup in the registry that fails with
    [UnknownEnvironment] on an identifier that is not registered. *)
Definition getConfig (environment : EnvironmentId) : LookupError + Config :=
  match registry !! environment with
  | Some c => inr c
  | None => inl UnknownEnvironment
  end.

(** ** Invariants of the data model (section 3) *)

Inductive Range :=
  | Closed01       (* [0,1] *)
  | Open01         (* (0,1) *)
  | RightOpen01    (* [0,1) *)
  | LeftOpen01     (* (0,1] *)
  | NonNegative.   (* [0,oo) *)

Definition in_range (r : Range) (q : Q) : bool :=
  match r with
  | Closed01 => Qle_bool 0 q && Qle_bool q 1
  | Open01 => Qlt_bool 0 q && Qlt_bool q 1
  | RightOpen01 => Qle_bool 0 q && Qlt_bool q 1
  | LeftOpen01 => Qlt_bool 0 q && Qle_bool q 1
  | NonNegative => Qle_bool 0 q
  end.

Definition InRange (r : Range) (q : Q) : Prop :=
  match r with
  | Closed01 => (0 <= q /\ q <= 1)%Q
  | Open01 => (0 < q /\ q < 1)%Q
  | RightOpen01 => (0 <= q /\ q < 1)%Q
  | LeftOpen01 => (0 < q /\ q <= 1)%Q
  | NonNegative => (0 <= q)%Q
  end.

(** The decimal string [s] has a value in the range [r]. *)
Definition dec_in (r : Range) (s : string) : Prop :=
  exists a, parseDecimal s = Some a /\ InRange r a.

(** [max_loan_to_value < liquidation_threshold < 1]. *)
Definition ltv_below_threshold (p : InitParams) : Prop :=
  dec_lt (max_loan_to_value p) (liquidation_threshold p)
  /\ dec_below (liquidation_threshold p) 1.

Definition ltv_below_threshold_b (p : InitParams) : bool :=
  dec_test2 Qlt_bool (max_loan_to_value p) (liquidation_threshold p)
  && dec_test (fun a => Qlt_bool a 1) (liquidation_threshold p).

(** [reserve_factor] in [0,1) and [liquidation_bonus >= 0]. *)
Definition risk_params_in_range (p : InitParams) : Prop :=
  dec_in RightOpen01 (reserve_factor p)
  /\ dec_in NonNegative (liquidation_bonus p).

Definition risk_params_in_range_b (p : InitParams) : bool :=
  dec_test (in_range RightOpen01) (reserve_factor p)
  && dec_test (in_range NonNegative) (liquidation_bonus p).

(** [min_borrow_rate <= max_borrow_rate], [optimal_utilization_rate] in
    (0,1), and the two gains and the augmentation threshold not negative. *)
Definition strategy_ok (d : DynamicParams) : Prop :=
  dec_le (min_borrow_rate d) (max_borrow_rate d)
  /\ dec_in Open01 (optimal_utilization_rate d)
  /\ dec_in NonNegative (kp_1 d)
  /\ dec_in NonNegative (kp_2 d)
  /\ dec_in NonNegative (kp_augmentation_threshold d).

Definition strategy_ok_b (d : DynamicParams) : bool :=
  dec_test2 Qle_bool (min_borrow_rate d) (max_borrow_rate d)
  && dec_test (in_range Open01) (optimal_utilization_rate d)
  && dec_test (in_range NonNegative) (kp_1 d)
  && dec_test (in_range NonNegative) (kp_2 d)
  && dec_test (in_range NonNegative) (kp_augmentation_threshold d).

(** Both fee shares in [0,1] and their sum at most 1. *)
Definition fee_shares_ok (r : RewardsCollector.Config) : Prop :=
  dec_in Closed01 (RewardsCollector.safety_fund_fee_share r)
  /\ dec_in Closed01 (RewardsCollector.treasury_fee_share r)
  /\ dec_sum_at_most (RewardsCollector.safety_fund_fee_share r)
                     (RewardsCollector.treasury_fee_share r) 1.

Definition fee_shares_ok_b (r : RewardsCollector.Config) : bool :=
  dec_test (in_range Closed01) (RewardsCollector.safety_fund_fee_share r)
  && dec_test (in_range Closed01) (RewardsCollector.treasury_fee_share r)
  && dec_test2 (fun a b => Qle_bool (a + b) 1)
       (RewardsCollector.safety_fund_fee_share r)
       (RewardsCollector.treasury_fee_share r).

(** [proposal_effective_delay < proposal_expiration_period], quorum and
    threshold in [0,1]. *)
Definition governance_ok (g : Council.Config) : Prop :=
  Council.proposal_effective_delay g < Council.proposal_expiration_period g
  /\ dec_in Closed01 (Council.proposal_required_quorum g)
  /\ dec_in Closed01 (Council.proposal_required_threshold g).

Definition governance_ok_b (g : Council.Config) : bool :=
  (Council.proposal_effective_delay g <? Council.proposal_expiration_period g)
  && dec_test (in_range Closed01) (Council.proposal_required_quorum g)
  && dec_test (in_range Closed01) (Council.proposal_required_threshold g).

(** [cooldown_duration <= unstake_window]. *)
Definition cooldown_within_window (s : Staking.Config) : Prop :=
  Staking.cooldown_duration s <= Staking.unstake_window s.

(** ** The schema validator

    Modelled from the spec: [validate] (section 4.2) and its result types
    are not in the module.  It walks the sub-records in the order of the
    fields of [Config], then the asset entries in list order, checks the
    invariants of section 3, and reports every violation it finds.  An
    invariant that relates two fields is reported at the later field, with
    the path of the other one.  A string that does not parse is not a
    violation: it aborts the validation. *)

Inductive Segment :=
  | Key (k : string)
  | Idx (i : nat).

Definition FieldPath : Type := list Segment.

Inductive Violation :=
  | OutOfRange (r : Range)
  | NegativeCount
  | NotAbove (other : FieldPath)
  | NotAtLeast (other : FieldPath)
  | SumAboveOne (other : FieldPath).

Inductive ValidationResult :=
  | Valid
  | Invalid (violations : list (FieldPath * Violation)).

Inductive ValidateError :=
  | Malformed (path : FieldPath).

Definition Checked (A : Type) : Type := ValidateError + A.

Definition bindC {A B} (m : Checked A) (k : A -> Checked B) : Checked B :=
  match m with
  | inl e => inl e
  | inr a => k a
  end.

Notation "'let?' x ':=' m 'in' k" := (bindC m (fun x => k))
  (at level 10, x name, m at level 100, k at level 200).

Definition decimal_at (path : FieldPath) (s : string) : Checked Q :=
  match parseDecimal s with
  | Some q => inr q
  | None => inl (Malformed path)
  end.

Definition integer_at (path : FieldPath) (s : string) : Checked Z :=
  match parseInteger s with
  | Some n => inr n
  | None => inl (Malformed path)
  end.

Definition report (ok : bool) (path : FieldPath) (v : Violation)
  : list (FieldPath * Violation) :=
  if ok then [] else [(path, v)].

Definition check_range (r : Range) (path : FieldPath) (s : string)
  : Checked (list (FieldPath * Violation)) :=
  let? q := decimal_at path s in
  inr (report (in_range r q) path (OutOfRange r)).

Definition check_count (path : FieldPath) (n : Z)
  : Checked (list (FieldPath * Violation)) :=
  inr (report (0 <=? n) path NegativeCount).

(** The checks of a record run in order; the first malformed field aborts,
    otherwise the violations are concatenated. *)
Fixpoint collect (cs : list (Checked (list (FieldPath * Violation))))
  : Checked (list (FieldPath * Violation)) :=
  match cs with
  | [] => inr []
  | c :: rest =>
      let? vs := c in
      let? ws := collect rest in
      inr (vs ++ ws)%list
  end.

Definition validateCouncil (at_ : FieldPath) (g : Council.Config) :=
  let f k := (at_ ++ [Key k])%list in
  collect
    [ check_count (f "proposal_voting_period") (Council.proposal_voting_period g);
      check_count (f "proposal_effective_delay") (Council.proposal_effective_delay g);
      check_count (f "proposal_expiration_period") (Council.proposal_expiration_period g);
      inr (report (Council.proposal_effective_delay g <? Council.proposal_expiration_period g)
             (f "proposal_expiration_period") (NotAbove (f "proposal_effective_delay")));
      (let? _ := integer_at (f "proposal_required_deposit") (Council.proposal_required_deposit g) in
       inr []);
      check_range Closed01 (f "proposal_required_quorum") (Council.proposal_required_quorum g);
      check_range Closed01 (f "proposal_required_threshold") (Council.proposal_required_threshold g) ].

Definition validateStaking (at_ : FieldPath) (s : Staking.Config) :=
  let f k := (at_ ++ [Key k])%list in
  collect
    [ check_range Closed01 (f "astroport_max_spread") (Staking.astroport_max_spread s);
      check_count (f "cooldown_duration") (Staking.cooldown_duration s);
      check_count (f "unstake_window") (Staking.unstake_window s) ].

Definition validateFeeShare (at_ : FieldPath) (m : FeeShare.InitMsg) :=
  let f k := (at_ ++ [Key k])%list in
  collect
    [ (let? _ := decimal_at (f "astroport_max_spread") (FeeShare.astroport_max_spread m) in
       inr []) ].

Definition validateRewardsCollector (at_ : FieldPath) (r : RewardsCollector.Config) :=
  let f k := (at_ ++ [Key k])%list in
  collect
    [ check_range Closed01 (f "safety_fund_fee_share") (RewardsCollector.safety_fund_fee_share r);
      check_range Closed01 (f "treasury_fee_share") (RewardsCollector.treasury_fee_share r);
      (let? a := decimal_at (f "safety_fund_fee_share") (RewardsCollector.safety_fund_fee_share r) in
       let? b := decimal_at (f "treasury_fee_share") (RewardsCollector.treasury_fee_share r) in
       inr (report (Qle_bool (a + b) 1) (f "treasury_fee_share")
              (SumAboveOne (f "safety_fund_fee_share"))));
      (let? _ := decimal_at (f "astroport_max_spread") (RewardsCollector.astroport_max_spread r) in
       inr []) ].

Definition validateRedBank (at_ : FieldPath) (r : RedBank.Config) :=
  let f k := (at_ ++ [Key k])%list in
  collect [ check_range LeftOpen01 (f "close_factor") (RedBank.close_factor r) ].

Definition validateStrategy (at_ : FieldPath) (s : InterestRateStrategy) :=
  match s with
  | dynamic d =>
      let f k := (at_ ++ [Key "dynamic"; Key k])%list in
      collect
        [ (let? lo := decimal_at (f "min_borrow_rate") (min_borrow_rate d) in
           let? hi := decimal_at (f "max_borrow_rate") (max_borrow_rate d) in
           inr (report (Qle_bool lo hi) (f "max_borrow_rate")
                  (NotAtLeast (f "min_borrow_rate"))));
          check_range NonNegative (f "kp_1") (kp_1 d);
          check_range Open01 (f "optimal_utilization_rate") (optimal_utilization_rate d);
          check_range NonNegative (f "kp_augmentation_threshold") (kp_augmentation_threshold d);
          check_range NonNegative (f "kp_2") (kp_2 d) ]
  end.

Definition validateInitParams (at_ : FieldPath) (p : InitParams) :=
  let f k := (at_ ++ [Key k])%list in
  collect
    [ check_range NonNegative (f "initial_borrow_rate") (initial_borrow_rate p);
      check_range Open01 (f "max_loan_to_value") (max_loan_to_value p);
      check_range RightOpen01 (f "reserve_factor") (reserve_factor p);
      check_range Open01 (f "liquidation_threshold") (liquidation_threshold p);
      (let? ltv := decimal_at (f "max_loan_to_value") (max_loan_to_value p) in
       let? lt := decimal_at (f "liquidation_threshold") (liquidation_threshold p) in
       inr (report (Qlt_bool ltv lt) (f "liquidation_threshold")
              (NotAbove (f "max_loan_to_value"))));
      check_range NonNegative (f "liquidation_bonus") (liquidation_bonus p);
      validateStrategy (f "interest_rate_strategy") (interest_rate_strategy p) ].

(** The entries of [initialAssets], from index [i] on. *)
Fixpoint validateAssets (i : nat) (l : list Asset) :=
  match l with
  | [] => inr []
  | a :: rest =>
      let? vs := validateInitParams [Key "initialAssets"; Idx i; Key "init_params"]
                   (init_params a) in
      let? ws := validateAssets (S i) rest in
      inr (vs ++ ws)%list
  end.

(** Modelled from the spec: the walk of section 4.2 over every sub-record
    and every asset entry, all violations reported together. *)
Definition violations (c : Config) : Checked (list (FieldPath * Violation)) :=
  collect
    [ validateCouncil [Key "councilInitMsg"; Key "config"]
        (Council.config (councilInitMsg c));
      validateStaking [Key "stakingInitMsg"; Key "config"]
        (Staking.config (stakingInitMsg c));
      validateFeeShare [Key "safetyFundInitMsg"] (safetyFundInitMsg c);
      validateFeeShare [Key "treasuryInitMsg"] (treasuryInitMsg c);
      validateRewardsCollector [Key "protocolRewardsCollectorInitMsg"; Key "config"]
        (RewardsCollector.config (protocolRewardsCollectorInitMsg c));
      validateRedBank [Key "redBankInitMsg"; Key "config"]
        (RedBank.config (redBankInitMsg c));
      validateAssets 0 (initialAssets c) ].

(** Modelled from the spec: [validate] (section 4.2), which is not in the
    module: success, or the ordered list of violations; a malformed field
    is an error of the call, not a violation. *)
Definition validate (config : Config) : Checked ValidationResult :=
  let? vs := violations config in
  inr (match vs with [] => Valid | _ => Invalid vs end).

(** ** Changing one field of one asset entry *)

Definition with_liquidation_threshold (v : string) (p : InitParams) : InitParams :=
  {| initial_borrow_rate := initial_borrow_rate p;
     max_loan_to_value := max_loan_to_value p;
     reserve_factor := reserve_factor p;
     liquidation_threshold := v;
     liquidation_bonus := liquidation_bonus p;
     interest_rate_strategy := interest_rate_strategy p;
     active := active p;
     deposit_enabled := deposit_enabled p;
     borrow_enabled := borrow_enabled p |}.

Definition map_init_params (f : InitParams -> InitParams) (a : Asset) : Asset :=
  match a with
  | NativeAsset d p => NativeAsset d (f p)
  | Cw20Asset s addr p => Cw20Asset s addr (f p)
  end.

Definition with_initialAssets (l : list Asset) (c : Config) : Config :=
  {| councilInitMsg := councilInitMsg c;
     stakingInitMsg := stakingInitMsg c;
     safetyFundInitMsg := safetyFundInitMsg c;
     treasuryInitMsg := treasuryInitMsg c;
     protocolRewardsCollectorInitMsg := protocolRewardsCollectorInitMsg c;
     redBankInitMsg := redBankInitMsg c;
     initialAssets := l;
     mirFarmingStratContractAddress := mirFarmingStratContractAddress c;
     ancFarmingStratContractAddress := ancFarmingStratContractAddress c;
     marsFarmingStratContractAddress := marsFarmingStratContractAddress c;
     minterProxyContractAddress := minterProxyContractAddress c;
     marsTokenContractAddress := marsTokenContractAddress c;
     oracleFactoryAddress := oracleFactoryAddress c |}.

(** The copy of [c] whose [i]-th asset entry has [liquidation_threshold]
    set to [v]; [c] itself when it has no such entry. *)
Definition mutate_liquidation_threshold (i : nat) (v : string) (c : Config) : Config :=
  with_initialAssets
    (alter (map_init_params (with_liquidation_threshold v)) i (initialAssets c)) c.

Definition liquidation_threshold_path (i : nat) : FieldPath :=
  [Key "initialAssets"; Idx i; Key "init_params"; Key "liquidation_threshold"].

(** ** The deployment driver, as far as the asset list reaches it *)

Inductive InstantiateTx :=
  | InstantiateCouncil (m : Council.InitMsg)
  | InstantiateStaking (m : Staking.InitMsg)
  | InstantiateSafetyFund (m : FeeShare.InitMsg)
  | InstantiateTreasury (m : FeeShare.InitMsg)
  | InstantiateRewardsCollector (m : RewardsCollector.InitMsg)
  | InstantiateRedBank (m : RedBank.InitMsg)
  | InstantiateAsset (a : Asset).

Definition is_asset_tx (t : InstantiateTx) : bool :=
  match t with
  | InstantiateAsset _ => true
  | _ => false
  end.

(** Modelled from the spec: the driver is outside the module; section 6
    has it submit one instantiate transaction per sub-record and one per
    entry of [initialAssets]. *)
Definition instantiateTransactions (c : Config) : list InstantiateTx :=
  ([ InstantiateCouncil (councilInitMsg c);
    InstantiateStaking (stakingInitMsg c);
    InstantiateSafetyFund (safetyFundInitMsg c);
    InstantiateTreasury (treasuryInitMsg c);
    InstantiateRewardsCollector (protocolRewardsCollectorInitMsg c);
    InstantiateRedBank (redBankInitMsg c) ]
  ++ (InstantiateAsset <$> initialAssets c))%list.

(** ** Further readings of the literals *)

#[global] Instance DynamicParams_eq_dec : EqDecision DynamicParams.
Proof. solve_decision. Defined.

#[global] Instance InterestRateStrategy_eq_dec : EqDecision InterestRateStrategy.
Proof. solve_decision. Defined.

#[global] Instance InitParams_eq_dec : EqDecision InitParams.
Proof. solve_decision. Defined.

(** What names an asset entry: its [denom], or its [symbol]. *)
Inductive AssetKey :=
  | Denom (d : string)
  | Symbol (s : string).

#[global] Instance AssetKey_eq_dec : EqDecision AssetKey.
Proof. solve_decision. Defined.

Definition asset_key (a : Asset) : AssetKey :=
  match a with
  | NativeAsset d _ => Denom d
  | Cw20Asset s _ _ => Symbol s
  end.

(** The [contract_addr] of a CW20 entry; a native coin has none. *)
Definition asset_contract_addr (a : Asset) : list Address :=
  match a with
  | NativeAsset _ _ => []
  | Cw20Asset _ addr _ => [addr]
  end.

(** [close_factor] in (0,1]. *)
Definition close_factor_ok (r : RedBank.Config) : Prop :=
  dec_in LeftOpen01 (RedBank.close_factor r).

Definition close_factor_ok_b (r : RedBank.Config) : bool :=
  dec_test (in_range LeftOpen01) (RedBank.close_factor r).

(** The four [astroport_max_spread] fields of a configuration. *)
Definition max_spreads (c : Config) : list string :=
  [ Staking.astroport_max_spread (Staking.config (stakingInitMsg c));
    FeeShare.astroport_max_spread (safetyFundInitMsg c);
    FeeShare.astroport_max_spread (treasuryInitMsg c);
    RewardsCollector.astroport_max_spread
      (RewardsCollector.config (protocolRewardsCollectorInitMsg c)) ].

(** [min_borrow_rate <= initial_borrow_rate <= max_borrow_rate]. *)
Definition initial_rate_within_bounds (p : InitParams) : Prop :=
  dec_le (min_borrow_rate (strategy_params (interest_rate_strategy p)))
         (initial_borrow_rate p)
  /\ dec_le (initial_borrow_rate p)
            (max_borrow_rate (strategy_params (interest_rate_strategy p))).

Definition initial_rate_within_bounds_b (p : InitParams) : bool :=
  dec_test2 Qle_bool (min_borrow_rate (strategy_params (interest_rate_strategy p)))
            (initial_borrow_rate p)
  && dec_test2 Qle_bool (initial_borrow_rate p)
               (max_borrow_rate (strategy_params (interest_rate_strategy p))).

(** [0 < max_loan_to_value], and a position liquidated at the threshold
    still covers the bonus:
    [liquidation_threshold * (1 + liquidation_bonus) < 1]. *)
Definition liquidation_margin (p : InitParams) : Prop :=
  dec_above (max_loan_to_value p) 0
  /\ exists t b,
       parseDecimal (liquidation_threshold p) = Some t
       /\ parseDecimal (liquidation_bonus p) = Some b
       /\ (t * (1 + b) < 1)%Q.

Definition liquidation_margin_b (p : InitParams) : bool :=
  dec_test (fun a => Qlt_bool 0 a) (max_loan_to_value p)
  && dec_test2 (fun t b => Qlt_bool (t * (1 + b)) 1)
               (liquidation_threshold p) (liquidation_bonus p).

(** [kp_1 <= kp_2]: the gain past the augmentation threshold is not the
    smaller one. *)
Definition gains_ordered (d : DynamicParams) : Prop :=
  dec_le (kp_1 d) (kp_2 d).

Definition gains_ordered_b (d : DynamicParams) : bool :=
  dec_test2 Qle_bool (kp_1 d) (kp_2 d).

(** The three flags of an asset entry are all [true]. *)
Definition fully_enabled (p : InitParams) : bool :=
  active p && deposit_enabled p && borrow_enabled p.

(** Entries of the two lists with the same key have the same parameters. *)
Definition assets_agree (l1 l2 : list Asset) : Prop :=
  forall a1 a2,
    a1 ∈ l1 -> a2 ∈ l2 -> asset_key a1 = asset_key a2 ->
    init_params a1 = init_params a2.

Definition assets_agree_b (l1 l2 : list Asset) : bool :=
  forallb (fun a1 =>
    forallb (fun a2 =>
      if decide (asset_key a1 = asset_key a2)
      then bool_decide (init_params a1 = init_params a2)
      else true) l2) l1.

(** The fields that name who owns a contract, where the address provider
    is, and which code the receipt token runs. *)
Definition deployer_addresses (c : Config) : list Address :=
  [ Council.address_provider_address (Council.config (councilInitMsg c));
    Staking.owner (Staking.config (stakingInitMsg c));
    Staking.address_provider_address (Staking.config (stakingInitMsg c));
    FeeShare.owner (safetyFundInitMsg c);
    FeeShare.owner (treasuryInitMsg c);
    RewardsCollector.owner
      (RewardsCollector.config (protocolRewardsCollectorInitMsg c));
    RewardsCollector.address_provider_address
      (RewardsCollector.config (protocolRewardsCollectorInitMsg c));
    RedBank.owner (RedBank.config (redBankInitMsg c));
    RedBank.address_provider_address (RedBank.config (redBankInitMsg c)) ].

(** Every field of a configuration that holds an address, the asset
    entries' [contract_addr] last. *)
Definition addresses (c : Config) : list Address :=
  (deployer_addresses c
   ++ [ Staking.astroport_factory_address (Staking.config (stakingInitMsg c));
        FeeShare.astroport_factory_address (safetyFundInitMsg c);
        FeeShare.astroport_factory_address (treasuryInitMsg c);
        RewardsCollector.astroport_factory_address
          (RewardsCollector.config (protocolRewardsCollectorInitMsg c));
        mirFarmingStratContractAddress c;
        ancFarmingStratContractAddress c;
        marsFarmingStratContractAddress c;
        minterProxyContractAddress c;
        marsTokenContractAddress c;
        oracleFactoryAddress c ]
   ++ concat (asset_contract_addr <$> initialAssets c))%list.

(** The addresses among them that are not [undefined]. *)
Definition resolved_addresses (c : Config) : list string :=
  omap id (addresses c).

(** *** Bech32 (BIP-173), as Terra addresses are written

    An address is the human-readable part ["terra"], the separator ["1"],
    and 38 characters of the bech32 alphabet, the last six of them a
    checksum over the rest. *)

Definition bech32_charset : string := "qpzry9x8gf2tvdw0s3jn54khce6mua7l".

Fixpoint charset_index (c : ascii) (s : string) (i : Z) : option Z :=
  match s with
  | EmptyString => None
  | String c' rest => if Ascii.eqb c c' then Some i else charset_index c rest (i + 1)
  end.

Fixpoint bech32_values (s : string) : option (list Z) :=
  match s with
  | EmptyString => Some []
  | String c rest =>
      match charset_index c bech32_charset 0, bech32_values rest with
      | Some v, Some vs => Some (v :: vs)
      | _, _ => None
      end
  end.

Definition bech32_generators : list Z :=
  [0x3b6a57b2; 0x26508e6d; 0x1ea119fa; 0x3d4233dd; 0x2a1462b3].

Fixpoint apply_generators (top : Z) (i : Z) (gs : list Z) (chk : Z) : Z :=
  match gs with
  | [] => chk
  | g :: rest =>
      apply_generators top (i + 1) rest
        (if Z.testbit top i then Z.lxor chk g else chk)
  end.

Definition polymod_step (chk v : Z) : Z :=
  apply_generators (Z.shiftr chk 25) 0 bech32_generators
    (Z.lxor (Z.shiftl (Z.land chk 0x1ffffff) 5) v).

Definition bech32_polymod (values : list Z) : Z :=
  fold_left polymod_step values 1.

Fixpoint char_codes (s : string) : list Z :=
  match s with
  | EmptyString => []
  | String c rest => Z.of_N (N_of_ascii c) :: char_codes rest
  end.

Definition bech32_hrp_expand (hrp : string) : list Z :=
  (map (fun x => Z.shiftr x 5) (char_codes hrp)
   ++ [0]
   ++ map (fun x => Z.land x 31) (char_codes hrp))%list.

Definition terra_address (s : string) : bool :=
  String.prefix "terra1" s
  && (String.length s =? 44)%nat
  && match bech32_values (substring 6 38 s) with
     | Some vs => bech32_polymod (bech32_hrp_expand "terra" ++ vs)%list =? 1
     | None => false
     end.

(** The counts of the council are sound: a positive voting period that
    ends before a proposal expires, a delay that is not negative, and a
    positive deposit. *)
Definition council_periods_ok (g : Council.Config) : Prop :=
  0 < Council.proposal_voting_period g
  /\ 0 <= Council.proposal_effective_delay g
  /\ Council.proposal_voting_period g + Council.proposal_effective_delay g
     <= Council.proposal_expiration_period g
  /\ exists n, parseInteger (Council.proposal_required_deposit g) = Some n /\ 0 < n.

(** * Properties *)

(** ** Comparisons of decimal strings, decided by evaluation *)

Lemma Qlt_bool_iff (a b : Q) : Qlt_bool a b = true <-> (a < b)%Q.
Proof.
  unfold Qlt_bool. rewrite negb_true_iff. split.
  - intros H. apply Qnot_le_lt. intros Hle.
    apply Qle_bool_iff in Hle. congruence.
  - intros H. destruct (Qle_bool b a) eqn:E; [|reflexivity].
    apply Qle_bool_iff in E. exfalso. exact (Qlt_not_le _ _ H E).
Qed.

Lemma in_range_sound (r : Range) (q : Q) : in_range r q = true -> InRange r q.
Proof.
  destruct r; simpl; rewrite ?andb_true_iff, ?Qlt_bool_iff, ?Qle_bool_iff; tauto.
Qed.

Lemma dec_test_true (f : Q -> bool) (s : string) :
  dec_test f s = true -> exists a, parseDecimal s = Some a /\ f a = true.
Proof.
  unfold dec_test. destruct (parseDecimal s) as [a|]; [|discriminate].
  intros H. exists a. auto.
Qed.

Lemma dec_test2_true (f : Q -> Q -> bool) (s t : string) :
  dec_test2 f s t = true ->
  exists a b, parseDecimal s = Some a /\ parseDecimal t = Some b /\ f a b = true.
Proof.
  unfold dec_test2.
  destruct (parseDecimal s) as [a|]; [|discriminate].
  destruct (parseDecimal t) as [b|]; [|discriminate].
  intros H. exists a, b. auto.
Qed.

Lemma dec_in_sound (r : Range) (s : string) :
  dec_test (in_range r) s = true -> dec_in r s.
Proof.
  intros H. apply dec_test_true in H as (a & Ha & Hr).
  exists a. split; [exact Ha | exact (in_range_sound _ _ Hr)].
Qed.

Lemma dec_lt_sound (s t : string) : dec_test2 Qlt_bool s t = true -> dec_lt s t.
Proof.
  intros H. apply dec_test2_true in H as (a & b & Ha & Hb & Hab).
  exists a, b. rewrite Qlt_bool_iff in Hab. auto.
Qed.

Lemma dec_le_sound (s t : string) : dec_test2 Qle_bool s t = true -> dec_le s t.
Proof.
  intros H. apply dec_test2_true in H as (a & b & Ha & Hb & Hab).
  exists a, b. rewrite Qle_bool_iff in Hab. auto.
Qed.

Lemma dec_below_sound (s : string) (q : Q) :
  dec_test (fun a => Qlt_bool a q) s = true -> dec_below s q.
Proof.
  intros H. apply dec_test_true in H as (a & Ha & Hq).
  exists a. rewrite Qlt_bool_iff in Hq. auto.
Qed.

Lemma dec_sum_at_most_sound (s t : string) (q : Q) :
  dec_test2 (fun a b => Qle_bool (a + b) q) s t = true -> dec_sum_at_most s t q.
Proof.
  intros H. apply dec_test2_true in H as (a & b & Ha & Hb & Hab).
  exists a, b. rewrite Qle_bool_iff in Hab. auto.
Qed.

(** ** The boolean checks decide the invariants *)

Lemma ltv_below_threshold_sound (p : InitParams) :
  ltv_below_threshold_b p = true -> ltv_below_threshold p.
Proof.
  unfold ltv_below_threshold_b, ltv_below_threshold.
  rewrite andb_true_iff. intros [H1 H2].
  split; [apply dec_lt_sound | apply dec_below_sound]; assumption.
Qed.

Lemma risk_params_in_range_sound (p : InitParams) :
  risk_params_in_range_b p = true -> risk_params_in_range p.
Proof.
  unfold risk_params_in_range_b, risk_params_in_range.
  rewrite andb_true_iff. intros [H1 H2].
  split; apply dec_in_sound; assumption.
Qed.

Lemma strategy_ok_sound (d : DynamicParams) :
  strategy_ok_b d = true -> strategy_ok d.
Proof.
  unfold strategy_ok_b, strategy_ok.
  rewrite !andb_true_iff. intros [[[[H1 H2] H3] H4] H5].
  repeat split; first [apply dec_le_sound | apply dec_in_sound]; assumption.
Qed.

Lemma fee_shares_ok_sound (r : RewardsCollector.Config) :
  fee_shares_ok_b r = true -> fee_shares_ok r.
Proof.
  unfold fee_shares_ok_b, fee_shares_ok.
  rewrite !andb_true_iff. intros [[H1 H2] H3].
  repeat split; first [apply dec_sum_at_most_sound | apply dec_in_sound]; assumption.
Qed.

Lemma governance_ok_sound (g : Council.Config) :
  governance_ok_b g = true -> governance_ok g.
Proof.
  unfold governance_ok_b, governance_ok.
  rewrite !andb_true_iff, Z.ltb_lt. intros [[H1 H2] H3].
  repeat split; first [assumption | apply dec_in_sound; assumption].
Qed.

(** A boolean check that passes on every entry of an asset list gives the
    invariant it decides on every entry. *)
Lemma assets_checked (f : InitParams -> bool) (P : InitParams -> Prop) :
  (forall p, f p = true -> P p) ->
  forall l : list Asset,
    forallb (fun a => f (init_params a)) l = true ->
    Forall (fun a => P (init_params a)) l.
Proof.
  intros Hf l. induction l as [|a l IH]; simpl; intros H.
  - constructor.
  - apply andb_true_iff in H as [Ha Hl]. constructor; auto.
Qed.

(** ** The registry and the exports *)

Lemma exports_cases (e : string) (c : Config) :
  (e, c) ∈ exports ->
  (e = "testnet" /\ c = testnet) \/ (e = "bombay" /\ c = bombay)
  \/ (e = "local" /\ c = local).
Proof.
  unfold exports. rewrite !elem_of_cons, elem_of_nil.
  intros [H|[H|[H|[]]]]; inversion H; auto.
Qed.

Lemma exports_ind (P : Config -> Prop) :
  P testnet -> P bombay -> P local ->
  forall e c, (e, c) ∈ exports -> P c.
Proof.
  intros Ht Hb Hl e c H.
  destruct (exports_cases e c H) as [[_ ->]|[[_ ->]|[_ ->]]]; assumption.
Qed.

Lemma exports_names_NoDup : NoDup (exports.*1).
Proof.
  apply (bool_decide_unpack (NoDup (exports.*1))). vm_compute. exact I.
Qed.

Lemma getConfig_ok_iff (e : EnvironmentId) (c : Config) :
  getConfig e = inr c <-> (e, c) ∈ exports.
Proof.
  unfold getConfig, registry. split.
  - destruct (list_to_map exports !! e) as [c'|] eqn:E; [|discriminate].
    intros [= <-]. by apply elem_of_list_to_map_2.
  - intros H. apply (elem_of_list_to_map_1 (M := gmap string)) in H.
    + by rewrite H.
    + exact exports_names_NoDup.
Qed.

Lemma getConfig_error_iff (e : EnvironmentId) (err : LookupError) :
  getConfig e = inl err <-> e ∉ exports.*1.
Proof.
  unfold getConfig, registry.
  rewrite (not_elem_of_list_to_map (M := gmap string) exports e).
  destruct (list_to_map exports !! e); split; intros H; try discriminate; auto.
  by destruct err.
Qed.

(** ** The validator reports a threshold that is not above the ceiling *)

Lemma collect_inr (cs : list (Checked (list (FieldPath * Violation))))
    (vs : list (FieldPath * Violation)) :
  collect cs = inr vs ->
  forall c, c ∈ cs -> exists ws, c = inr ws /\ ws ⊆ vs.
Proof.
  revert vs. induction cs as [|c0 cs IH]; simpl; intros vs H c Hc.
  - by apply elem_of_nil in Hc.
  - destruct c0 as [err|ws0]; simpl in H; [discriminate|].
    destruct (collect cs) as [err|ws1]; simpl in H; [discriminate|].
    injection H as <-.
    apply elem_of_cons in Hc as [->|Hc].
    + exists ws0. split; [reflexivity|]. intros x Hx. apply elem_of_app. auto.
    + destruct (IH ws1 eq_refl c Hc) as (ws & -> & Hsub).
      exists ws. split; [reflexivity|]. intros x Hx. apply elem_of_app. auto.
Qed.

Lemma validateInitParams_threshold (path : FieldPath) (p : InitParams)
    (ltv lt : Q) (vs : list (FieldPath * Violation)) :
  parseDecimal (max_loan_to_value p) = Some ltv ->
  parseDecimal (liquidation_threshold p) = Some lt ->
  ~ (ltv < lt)%Q ->
  validateInitParams path p = inr vs ->
  ((path ++ [Key "liquidation_threshold"])%list,
   NotAbove (path ++ [Key "max_loan_to_value"])%list) ∈ vs.
Proof.
  intros Hltv Hlt Hnot H. unfold validateInitParams in H.
  eapply collect_inr in H as (ws & Hws & Hsub).
  2:{ do 4 apply list_elem_of_further. apply list_elem_of_here. }
  unfold decimal_at in Hws. rewrite Hltv, Hlt in Hws. simpl in Hws.
  destruct (Qlt_bool ltv lt) eqn:E.
  - apply Qlt_bool_iff in E. contradiction.
  - injection Hws as <-. apply Hsub. simpl. apply list_elem_of_here.
Qed.

Lemma validateAssets_lookup (l : list Asset) :
  forall (i0 : nat) (vs : list (FieldPath * Violation)),
    validateAssets i0 l = inr vs ->
    forall (i : nat) (a : Asset),
      l !! i = Some a ->
      exists ws,
        validateInitParams [Key "initialAssets"; Idx (i0 + i); Key "init_params"]
          (init_params a) = inr ws
        /\ ws ⊆ vs.
Proof.
  induction l as [|a0 l IH]; simpl; intros i0 vs H i a Hi.
  - discriminate.
  - destruct (validateInitParams _ (init_params a0)) as [err|ws0] eqn:E0;
      simpl in H; [discriminate|].
    destruct (validateAssets (S i0) l) as [err|ws1] eqn:E1;
      simpl in H; [discriminate|].
    injection H as <-.
    destruct i as [|i]; simpl in Hi.
    + injection Hi as <-. rewrite Nat.add_0_r. exists ws0.
      split; [exact E0|]. intros x Hx. apply elem_of_app. auto.
    + destruct (IH (S i0) ws1 E1 i a Hi) as (ws & Hws & Hsub).
      exists ws. rewrite <- Nat.add_succ_comm. split; [exact Hws|].
      intros x Hx. apply elem_of_app. auto.
Qed.

(** Whenever the validator returns, on a configuration one of whose asset
    entries has a threshold that is not above its loan-to-value ceiling, it
    returns a list of violations with one at that entry's
    [liquidation_threshold]. *)
Lemma validate_reports_threshold (c : Config) (i : nat) (a : Asset) (ltv lt : Q)
    (r : ValidationResult) :
  initialAssets c !! i = Some a ->
  parseDecimal (max_loan_to_value (init_params a)) = Some ltv ->
  parseDecimal (liquidation_threshold (init_params a)) = Some lt ->
  ~ (ltv < lt)%Q ->
  validate c = inr r ->
  exists vs v, r = Invalid vs /\ (liquidation_threshold_path i, v) ∈ vs.
Proof.
  intros Hi Hltv Hlt Hnot H. unfold validate in H.
  destruct (violations c) as [err|vs] eqn:Ev; simpl in H; [discriminate|].
  injection H as <-.
  unfold violations in Ev.
  eapply collect_inr in Ev as (ws & Hws & Hsub).
  2:{ do 6 apply list_elem_of_further. apply list_elem_of_here. }
  destruct (validateAssets_lookup _ _ _ Hws i a Hi) as (ws' & Hws' & Hsub').
  pose proof (validateInitParams_threshold _ _ _ _ _ Hltv Hlt Hnot Hws') as Hin.
  apply Hsub', Hsub in Hin. simpl in Hin.
  destruct vs as [|x vs]; [by apply elem_of_nil in Hin|].
  eexists _, _. split; [reflexivity|]. exact Hin.
Qed.

Lemma mutate_liquidation_threshold_lookup (i : nat) (v : string) (c : Config) :
  initialAssets (mutate_liquidation_threshold i v c) !! i
  = map_init_params (with_liquidation_threshold v) <$> initialAssets c !! i.
Proof.
  unfold mutate_liquidation_threshold. simpl.
  rewrite list_lookup_alter. by rewrite decide_True.
Qed.

Lemma mutate_liquidation_threshold_other (i j : nat) (v : string) (c : Config) :
  i <> j ->
  initialAssets (mutate_liquidation_threshold i v c) !! j = initialAssets c !! j.
Proof.
  intros H. unfold mutate_liquidation_threshold. simpl.
  rewrite list_lookup_alter. by rewrite decide_False.
Qed.

(** ** A configuration that validates has the invariants *)

Lemma report_nil (ok : bool) (path : FieldPath) (v : Violation) :
  report ok path v = [] -> ok = true.
Proof. destruct ok; [reflexivity | discriminate]. Qed.

Lemma collect_nil (cs : list (Checked (list (FieldPath * Violation)))) :
  collect cs = inr [] -> Forall (fun c => c = inr []) cs.
Proof.
  induction cs as [|c cs IH]; simpl; intros H; [constructor|].
  destruct c as [err|vs]; simpl in H; [discriminate|].
  destruct (collect cs) as [err|ws]; simpl in H; [discriminate|].
  injection H as H. apply app_eq_nil in H as [-> ->].
  constructor; [reflexivity | apply IH; reflexivity].
Qed.

Lemma check_range_nil (r : Range) (path : FieldPath) (s : string) :
  check_range r path s = inr [] -> dec_in r s.
Proof.
  unfold check_range, decimal_at.
  destruct (parseDecimal s) as [q|] eqn:E; simpl; [|discriminate].
  intros [= H]. apply report_nil in H.
  exists q. split; [exact E | by apply in_range_sound].
Qed.

(** Peels the checks of a record that produced no violation. *)
Ltac peel H :=
  apply collect_nil in H;
  repeat match type of H with
         | Forall _ (_ :: _) =>
             let H1 := fresh "Hc" in
             apply Forall_cons in H as [H1 H]
         end;
  clear H.

Lemma validateStrategy_nil (path : FieldPath) (s : InterestRateStrategy) :
  validateStrategy path s = inr [] -> strategy_ok (strategy_params s).
Proof.
  destruct s as [d]. unfold validateStrategy. intros H. peel H.
  unfold decimal_at in Hc.
  destruct (parseDecimal (min_borrow_rate d)) as [lo|] eqn:Elo; [|discriminate].
  destruct (parseDecimal (max_borrow_rate d)) as [hi|] eqn:Ehi; [|discriminate].
  simpl in Hc. injection Hc as Hc. apply report_nil, Qle_bool_iff in Hc.
  simpl. repeat split; try (eapply check_range_nil; eassumption).
  exists lo, hi. auto.
Qed.

Lemma validateInitParams_nil (path : FieldPath) (p : InitParams) :
  validateInitParams path p = inr [] ->
  ltv_below_threshold p /\ risk_params_in_range p
  /\ strategy_ok (strategy_params (interest_rate_strategy p)).
Proof.
  unfold validateInitParams. intros H. peel H.
  apply check_range_nil in Hc, Hc0, Hc1, Hc2, Hc4.
  apply validateStrategy_nil in Hc5.
  unfold decimal_at in Hc3.
  destruct (parseDecimal (max_loan_to_value p)) as [ltv|] eqn:Eltv; [|discriminate].
  destruct (parseDecimal (liquidation_threshold p)) as [lt|] eqn:Elt; [|discriminate].
  simpl in Hc3. injection Hc3 as Hc3. apply report_nil, Qlt_bool_iff in Hc3.
  split; [|split; [split|]]; try assumption.
  split; [exists ltv, lt; auto|].
  destruct Hc2 as (a & Ha & _ & Hlt1). exists a. auto.
Qed.

Lemma validateAssets_nil (l : list Asset) :
  forall i0 : nat,
    validateAssets i0 l = inr [] ->
    Forall (fun a => exists path, validateInitParams path (init_params a) = inr []) l.
Proof.
  induction l as [|a l IH]; simpl; intros i0 H; [constructor|].
  destruct (validateInitParams _ (init_params a)) as [err|vs] eqn:E;
    simpl in H; [discriminate|].
  destruct (validateAssets (S i0) l) as [err|ws] eqn:E';
    simpl in H; [discriminate|].
  injection H as H. apply app_eq_nil in H as [-> ->].
  constructor; [eauto | eapply IH; eassumption].
Qed.

Lemma validateRewardsCollector_nil (path : FieldPath) (r : RewardsCollector.Config) :
  validateRewardsCollector path r = inr [] -> fee_shares_ok r.
Proof.
  unfold validateRewardsCollector. intros H. peel H.
  apply check_range_nil in Hc, Hc0.
  unfold decimal_at in Hc1.
  destruct (parseDecimal (RewardsCollector.safety_fund_fee_share r)) as [a|] eqn:Ea;
    [|discriminate].
  destruct (parseDecimal (RewardsCollector.treasury_fee_share r)) as [b|] eqn:Eb;
    [|discriminate].
  simpl in Hc1. injection Hc1 as Hc1. apply report_nil, Qle_bool_iff in Hc1.
  repeat split; try assumption. exists a, b. auto.
Qed.

Lemma validateCouncil_nil (path : FieldPath) (g : Council.Config) :
  validateCouncil path g = inr [] -> governance_ok g.
Proof.
  unfold validateCouncil. intros H. peel H.
  apply check_range_nil in Hc4, Hc5.
  injection Hc2 as Hc2. apply report_nil, Z.ltb_lt in Hc2.
  repeat split; assumption.
Qed.

(** What [validate] accepts satisfies the invariants of the council, of the
    rewards collector, and of every asset entry. *)
Lemma validate_Valid_sound (c : Config) :
  validate c = inr Valid ->
  governance_ok (Council.config (councilInitMsg c))
  /\ fee_shares_ok (RewardsCollector.config (protocolRewardsCollectorInitMsg c))
  /\ Forall (fun a => ltv_below_threshold (init_params a)
                      /\ risk_params_in_range (init_params a)
                      /\ strategy_ok (strategy_params
                                        (interest_rate_strategy (init_params a))))
            (initialAssets c).
Proof.
  unfold validate. destruct (violations c) as [err|vs] eqn:E; simpl; [discriminate|].
  destruct vs; [|discriminate]. intros _.
  unfold violations in E. peel E.
  split; [eapply validateCouncil_nil; eassumption|].
  split; [eapply validateRewardsCollector_nil; eassumption|].
  apply validateAssets_nil in Hc5.
  eapply Forall_impl; [exact Hc5|].
  intros a [path Hp]. simpl. eapply validateInitParams_nil; eassumption.
Qed.

(** ** The claims *)

(** C1.  For every registered environment, every asset entry of the
    [Config] that [getConfig] returns has
    [max_loan_to_value < liquidation_threshold < 1], the decimal strings
    being compared as exact rationals. *)
Theorem getConfig_ltv_below_threshold (e : EnvironmentId) (c : Config) :
  getConfig e = inr c ->
  Forall (fun a => ltv_below_threshold (init_params a)) (initialAssets c).
Proof.
  rewrite getConfig_ok_iff. revert e c.
  apply exports_ind;
    apply (assets_checked _ _ ltv_below_threshold_sound); vm_compute; reflexivity.
Qed.

Lemma getConfig_ltv_below_threshold_witness :
  Forall (fun a => ltv_below_threshold (init_params a)) (initialAssets testnet).
Proof.
  apply (getConfig_ltv_below_threshold "testnet" testnet).
  vm_compute. reflexivity.
Defined.

(** C2.  [getConfig e] fails with [UnknownEnvironment] exactly when [e] is
    none of ["testnet"], ["bombay"] and ["local"], and on each of these
    three it returns the literal of that name. *)
Theorem getConfig_unknown_iff :
  (forall e : EnvironmentId,
     getConfig e = inl UnknownEnvironment
     <-> (e <> "testnet" /\ e <> "bombay" /\ e <> "local"))
  /\ getConfig "testnet" = inr testnet
  /\ getConfig "bombay" = inr bombay
  /\ getConfig "local" = inr local.
Proof.
  split; [|repeat split; vm_compute; reflexivity].
  intros e. rewrite getConfig_error_iff. unfold exports. simpl.
  rewrite !not_elem_of_cons. split.
  - intros (H1 & H2 & H3 & _). auto.
  - intros (H1 & H2 & H3). repeat split; auto. apply not_elem_of_nil.
Qed.

(** C3.  The entry for [uusd] in the [testnet] configuration has
    [max_loan_to_value] 0.75, [liquidation_threshold] 0.85 and
    [liquidation_bonus] 0.1, and the configuration validates.  With that
    entry's [liquidation_threshold] changed to ["0.70"], validation returns
    a list of violations, one of which is at the path of that field. *)
Theorem testnet_uusd_validation :
  exists (c : Config) (a : Asset),
    getConfig "testnet" = inr c
    /\ initialAssets c !! 0%nat = Some a
    /\ denom a = Some "uusd"
    /\ decimal_is (max_loan_to_value (init_params a)) (3 # 4)
    /\ decimal_is (liquidation_threshold (init_params a)) (17 # 20)
    /\ decimal_is (liquidation_bonus (init_params a)) (1 # 10)
    /\ validate c = inr Valid
    /\ exists vs v,
         validate (mutate_liquidation_threshold 0 "0.70" c) = inr (Invalid vs)
         /\ (liquidation_threshold_path 0, v) ∈ vs.
Proof.
  exists testnet, (NativeAsset "uusd" uusd_params).
  split; [vm_compute; reflexivity|].
  split; [reflexivity|]. split; [reflexivity|].
  do 3 (split; [eexists; split; vm_compute; reflexivity|]).
  split; [vm_compute; reflexivity|].
  destruct (validate (mutate_liquidation_threshold 0 "0.70" testnet)) as [err|r] eqn:E;
    [vm_compute in E; discriminate|].
  destruct (validate_reports_threshold
              (mutate_liquidation_threshold 0 "0.70" testnet) 0
              (NativeAsset "uusd" (with_liquidation_threshold "0.70" uusd_params))
              (75 # 100) (70 # 100) r) as (vs & v & -> & Hin);
    try reflexivity; try exact E.
  - intros H. vm_compute in H. discriminate.
  - exists vs, v. split; [reflexivity | exact Hin].
Qed.

(** C4.  In every exported configuration, every interest rate strategy has
    [min_borrow_rate <= max_borrow_rate], [optimal_utilization_rate]
    strictly between 0 and 1, and [kp_1], [kp_2] and
    [kp_augmentation_threshold] not negative. *)
Theorem exports_strategy_ok (e : string) (c : Config) :
  (e, c) ∈ exports ->
  Forall (fun a => strategy_ok (strategy_params (interest_rate_strategy (init_params a))))
         (initialAssets c).
Proof.
  revert e c.
  apply exports_ind;
    apply (assets_checked (fun p => strategy_ok_b (strategy_params (interest_rate_strategy p)))
             (fun p => strategy_ok (strategy_params (interest_rate_strategy p))));
    first [ intros p; apply strategy_ok_sound | vm_compute; reflexivity ].
Qed.

Lemma exports_strategy_ok_witness :
  Forall (fun a => strategy_ok (strategy_params (interest_rate_strategy (init_params a))))
         (initialAssets bombay).
Proof.
  apply (exports_strategy_ok "bombay" bombay).
  unfold exports. apply list_elem_of_further, list_elem_of_here.
Defined.

(** C5.  In every exported configuration, the rewards collector's
    [safety_fund_fee_share] and [treasury_fee_share] each lie in [0,1] and
    their sum is at most 1. *)
Theorem exports_fee_shares_ok (e : string) (c : Config) :
  (e, c) ∈ exports ->
  fee_shares_ok (RewardsCollector.config (protocolRewardsCollectorInitMsg c)).
Proof.
  revert e c.
  apply exports_ind; apply fee_shares_ok_sound; vm_compute; reflexivity.
Qed.

Lemma exports_fee_shares_ok_witness :
  fee_shares_ok (RewardsCollector.config (protocolRewardsCollectorInitMsg local)).
Proof.
  apply (exports_fee_shares_ok "local" local).
  unfold exports. do 2 apply list_elem_of_further. apply list_elem_of_here.
Defined.

(** C6.  In every exported configuration, every asset entry has
    [reserve_factor] in [0,1) and [liquidation_bonus] not negative. *)
Theorem exports_risk_params_in_range (e : string) (c : Config) :
  (e, c) ∈ exports ->
  Forall (fun a => risk_params_in_range (init_params a)) (initialAssets c).
Proof.
  revert e c.
  apply exports_ind;
    apply (assets_checked _ _ risk_params_in_range_sound); vm_compute; reflexivity.
Qed.

Lemma exports_risk_params_in_range_witness :
  Forall (fun a => risk_params_in_range (init_params a)) (initialAssets testnet).
Proof.
  apply (exports_risk_params_in_range "testnet" testnet).
  unfold exports. apply list_elem_of_here.
Defined.

(** C7.  In every exported configuration, the council's
    [proposal_effective_delay] is strictly below its
    [proposal_expiration_period], and [proposal_required_quorum] and
    [proposal_required_threshold] each lie in [0,1]. *)
Theorem exports_governance_ok (e : string) (c : Config) :
  (e, c) ∈ exports ->
  governance_ok (Council.config (councilInitMsg c)).
Proof.
  revert e c.
  apply exports_ind; apply governance_ok_sound; vm_compute; reflexivity.
Qed.

Lemma exports_governance_ok_witness :
  governance_ok (Council.config (councilInitMsg local)).
Proof.
  apply (exports_governance_ok "local" local).
  unfold exports. do 2 apply list_elem_of_further. apply list_elem_of_here.
Defined.

(** C9.  In every exported configuration, the staking contract's
    [cooldown_duration] is at most its [unstake_window]: 90 and 300 in
    [testnet] and [bombay], 10 and 300 in [local]. *)
Theorem exports_cooldown_within_window :
  (forall e c, (e, c) ∈ exports ->
     cooldown_within_window (Staking.config (stakingInitMsg c)))
  /\ Staking.cooldown_duration (Staking.config (stakingInitMsg testnet)) = 90
  /\ Staking.unstake_window (Staking.config (stakingInitMsg testnet)) = 300
  /\ Staking.cooldown_duration (Staking.config (stakingInitMsg bombay)) = 90
  /\ Staking.unstake_window (Staking.config (stakingInitMsg bombay)) = 300
  /\ Staking.cooldown_duration (Staking.config (stakingInitMsg local)) = 10
  /\ Staking.unstake_window (Staking.config (stakingInitMsg local)) = 300.
Proof.
  split; [|repeat split].
  apply exports_ind; unfold cooldown_within_window; simpl; lia.
Qed.

Lemma exports_cooldown_within_window_witness :
  cooldown_within_window (Staking.config (stakingInitMsg local)).
Proof.
  apply (proj1 exports_cooldown_within_window "local" local).
  unfold exports. do 2 apply list_elem_of_further. apply list_elem_of_here.
Defined.

(** C10.  [getConfig "local"] returns a [Config] whose [initialAssets] is
    empty: every property holds of all its asset entries, and none of the
    instantiate transactions for it is one for an asset. *)
Theorem getConfig_local_no_assets :
  exists c,
    getConfig "local" = inr c
    /\ initialAssets c = []
    /\ (forall P : Asset -> Prop, Forall P (initialAssets c))
    /\ List.filter is_asset_tx (instantiateTransactions c) = [].
Proof.
  exists local. split; [vm_compute; reflexivity|].
  split; [reflexivity|]. split; [|reflexivity].
  intros P. simpl. constructor.
Qed.

(** ** Further properties of the exported configurations *)

Lemma forallb_Forall {A} (f : A -> bool) (l : list A) :
  forallb f l = true -> Forall (fun x => f x = true) l.
Proof.
  induction l as [|x l IH]; simpl; intros H; [constructor|].
  apply andb_true_iff in H as [Hx Hl]. constructor; auto.
Qed.

Lemma in_exports_testnet : ("testnet", testnet) ∈ exports.
Proof. unfold exports. apply list_elem_of_here. Qed.

Lemma in_exports_bombay : ("bombay", bombay) ∈ exports.
Proof. unfold exports. apply list_elem_of_further, list_elem_of_here. Qed.

Lemma in_exports_local : ("local", local) ∈ exports.
Proof. unfold exports. do 2 apply list_elem_of_further. apply list_elem_of_here. Qed.

Lemma initial_rate_within_bounds_sound (p : InitParams) :
  initial_rate_within_bounds_b p = true -> initial_rate_within_bounds p.
Proof.
  unfold initial_rate_within_bounds_b, initial_rate_within_bounds.
  rewrite andb_true_iff. intros [H1 H2]. split; apply dec_le_sound; assumption.
Qed.

Lemma liquidation_margin_sound (p : InitParams) :
  liquidation_margin_b p = true -> liquidation_margin p.
Proof.
  unfold liquidation_margin_b, liquidation_margin.
  rewrite andb_true_iff. intros [H1 H2]. split.
  - apply dec_test_true in H1 as (a & Ha & Hpos).
    exists a. rewrite Qlt_bool_iff in Hpos. auto.
  - apply dec_test2_true in H2 as (t & b & Ht & Hb & Htb).
    exists t, b. rewrite Qlt_bool_iff in Htb. auto.
Qed.

Lemma assets_agree_sound (l1 l2 : list Asset) :
  assets_agree_b l1 l2 = true -> assets_agree l1 l2.
Proof.
  unfold assets_agree_b, assets_agree. intros H a1 a2 H1 H2 Hk.
  apply forallb_Forall in H. rewrite Forall_forall in H.
  specialize (H a1 H1). apply forallb_Forall in H. rewrite Forall_forall in H.
  specialize (H a2 H2). simpl in H.
  destruct (decide (asset_key a1 = asset_key a2)) as [_|Hne]; [|contradiction].
  by apply bool_decide_eq_true in H.
Qed.

(** X1.  In every exported configuration the red bank's [close_factor]
    lies in (0,1]. *)
Theorem exports_close_factor_ok (e : string) (c : Config) :
  (e, c) ∈ exports ->
  close_factor_ok (RedBank.config (redBankInitMsg c)).
Proof.
  revert e c. apply exports_ind; apply dec_in_sound; vm_compute; reflexivity.
Qed.

Lemma exports_close_factor_ok_witness :
  close_factor_ok (RedBank.config (redBankInitMsg local)).
Proof. exact (exports_close_factor_ok "local" local in_exports_local). Defined.

(** X2.  In every exported configuration, the [astroport_max_spread] of
    the staking contract, the safety fund, the treasury and the rewards
    collector each lie in [0,1]. *)
Theorem exports_max_spreads_in_range (e : string) (c : Config) :
  (e, c) ∈ exports ->
  Forall (dec_in Closed01) (max_spreads c).
Proof.
  revert e c.
  apply exports_ind;
    (eapply Forall_impl;
     [apply (forallb_Forall (dec_test (in_range Closed01))); vm_compute; reflexivity
     |intros s Hs; by apply dec_in_sound]).
Qed.

Lemma exports_max_spreads_in_range_witness :
  Forall (dec_in Closed01) (max_spreads testnet).
Proof. exact (exports_max_spreads_in_range "testnet" testnet in_exports_testnet). Defined.

(** X3.  In every exported configuration, every asset entry's
    [initial_borrow_rate] lies between the [min_borrow_rate] and the
    [max_borrow_rate] of its interest rate strategy. *)
Theorem exports_initial_rate_within_bounds (e : string) (c : Config) :
  (e, c) ∈ exports ->
  Forall (fun a => initial_rate_within_bounds (init_params a)) (initialAssets c).
Proof.
  revert e c.
  apply exports_ind;
    apply (assets_checked _ _ initial_rate_within_bounds_sound);
    vm_compute; reflexivity.
Qed.

Lemma exports_initial_rate_within_bounds_witness :
  Forall (fun a => initial_rate_within_bounds (init_params a)) (initialAssets testnet).
Proof.
  exact (exports_initial_rate_within_bounds "testnet" testnet in_exports_testnet).
Defined.

(** X4.  In every exported configuration, every asset entry has a positive
    [max_loan_to_value] and
    [liquidation_threshold * (1 + liquidation_bonus) < 1]. *)
Theorem exports_liquidation_margin (e : string) (c : Config) :
  (e, c) ∈ exports ->
  Forall (fun a => liquidation_margin (init_params a)) (initialAssets c).
Proof.
  revert e c.
  apply exports_ind;
    apply (assets_checked _ _ liquidation_margin_sound); vm_compute; reflexivity.
Qed.

Lemma exports_liquidation_margin_witness :
  Forall (fun a => liquidation_margin (init_params a)) (initialAssets bombay).
Proof. exact (exports_liquidation_margin "bombay" bombay in_exports_bombay). Defined.

(** X5.  In every exported configuration, every interest rate strategy has
    [kp_1 <= kp_2]. *)
Theorem exports_gains_ordered (e : string) (c : Config) :
  (e, c) ∈ exports ->
  Forall (fun a => gains_ordered (strategy_params (interest_rate_strategy (init_params a))))
         (initialAssets c).
Proof.
  revert e c.
  apply exports_ind;
    apply (assets_checked
             (fun p => gains_ordered_b (strategy_params (interest_rate_strategy p)))
             (fun p => gains_ordered (strategy_params (interest_rate_strategy p))));
    first [ intros p; apply dec_le_sound | vm_compute; reflexivity ].
Qed.

Lemma exports_gains_ordered_witness :
  Forall (fun a => gains_ordered (strategy_params (interest_rate_strategy (init_params a))))
         (initialAssets testnet).
Proof. exact (exports_gains_ordered "testnet" testnet in_exports_testnet). Defined.

(** X6.  In every exported configuration, every asset entry is active and
    open to deposits and to borrowing. *)
Theorem exports_assets_fully_enabled (e : string) (c : Config) :
  (e, c) ∈ exports ->
  Forall (fun a => active (init_params a) = true
                   /\ deposit_enabled (init_params a) = true
                   /\ borrow_enabled (init_params a) = true)
         (initialAssets c).
Proof.
  assert (Hf : forall p, fully_enabled p = true ->
                 active p = true /\ deposit_enabled p = true /\ borrow_enabled p = true).
  { intros p. unfold fully_enabled. rewrite !andb_true_iff. tauto. }
  revert e c.
  apply exports_ind; apply (assets_checked _ _ Hf); vm_compute; reflexivity.
Qed.

Lemma exports_assets_fully_enabled_witness :
  Forall (fun a => active (init_params a) = true
                   /\ deposit_enabled (init_params a) = true
                   /\ borrow_enabled (init_params a) = true)
         (initialAssets testnet).
Proof. exact (exports_assets_fully_enabled "testnet" testnet in_exports_testnet). Defined.

(** X7.  In every exported configuration, no two asset entries have the
    same [denom] or the same [symbol]. *)
Theorem exports_asset_keys_NoDup (e : string) (c : Config) :
  (e, c) ∈ exports ->
  NoDup (asset_key <$> initialAssets c).
Proof.
  revert e c.
  apply exports_ind;
    match goal with
    | |- ?P => apply (bool_decide_unpack P); vm_compute; exact I
    end.
Qed.

Lemma exports_asset_keys_NoDup_witness :
  NoDup (asset_key <$> initialAssets testnet).
Proof. exact (exports_asset_keys_NoDup "testnet" testnet in_exports_testnet). Defined.

(** X8.  An asset listed in two exported configurations has the same
    parameters in both. *)
Theorem exports_assets_agree (e1 e2 : string) (c1 c2 : Config) :
  (e1, c1) ∈ exports -> (e2, c2) ∈ exports ->
  assets_agree (initialAssets c1) (initialAssets c2).
Proof.
  intros H1. revert e2 c2. revert e1 c1 H1.
  apply (exports_ind (fun c1 => forall e2 c2, (e2, c2) ∈ exports ->
                         assets_agree (initialAssets c1) (initialAssets c2)));
    apply exports_ind; apply assets_agree_sound; vm_compute; reflexivity.
Qed.

Lemma exports_assets_agree_witness :
  assets_agree (initialAssets testnet) (initialAssets bombay).
Proof.
  exact (exports_assets_agree "testnet" "bombay" testnet bombay
           in_exports_testnet in_exports_bombay).
Defined.

(** X9.  In every exported configuration, an asset entry with the symbol
    ["MARS"] has as [contract_addr] the configuration's
    [marsTokenContractAddress], resolved or not. *)
Theorem exports_mars_address_consistent (e : string) (c : Config)
    (addr : Address) (p : InitParams) :
  (e, c) ∈ exports ->
  Cw20Asset "MARS" addr p ∈ initialAssets c ->
  addr = marsTokenContractAddress c.
Proof.
  intros H. revert e c H.
  apply (exports_ind (fun c => Cw20Asset "MARS" addr p ∈ initialAssets c ->
                               addr = marsTokenContractAddress c));
    simpl; rewrite ?elem_of_cons, elem_of_nil;
    intros H; repeat destruct H as [H|H]; try discriminate H; try contradiction;
    injection H as -> _; reflexivity.
Qed.

Lemma exports_mars_address_consistent_witness :
  Some "terra1qs7h830ud0a4hj72yr8f7jmlppyx7z524f7gw6" = marsTokenContractAddress bombay.
Proof.
  apply (exports_mars_address_consistent "bombay" bombay _ mars_params in_exports_bombay).
  simpl. do 3 apply list_elem_of_further. apply list_elem_of_here.
Defined.

(** X10.  In every exported configuration, the AMM factory address given
    to the staking contract, to the safety fund and to the rewards
    collector is the configuration's [oracleFactoryAddress], resolved or
    not, while the treasury's is resolved in all of them. *)
Theorem exports_factory_addresses (e : string) (c : Config) :
  (e, c) ∈ exports ->
  Staking.astroport_factory_address (Staking.config (stakingInitMsg c))
    = oracleFactoryAddress c
  /\ FeeShare.astroport_factory_address (safetyFundInitMsg c)
     = oracleFactoryAddress c
  /\ RewardsCollector.astroport_factory_address
       (RewardsCollector.config (protocolRewardsCollectorInitMsg c))
     = oracleFactoryAddress c
  /\ FeeShare.astroport_factory_address (treasuryInitMsg c)
     = Some "terra18qpjm4zkvqnpjpw0zn0tdr8gdzvt8au35v45xf".
Proof.
  revert e c. apply exports_ind; repeat split; reflexivity.
Qed.

Lemma exports_factory_addresses_witness :
  Staking.astroport_factory_address (Staking.config (stakingInitMsg local))
    = oracleFactoryAddress local
  /\ FeeShare.astroport_factory_address (safetyFundInitMsg local)
     = oracleFactoryAddress local
  /\ RewardsCollector.astroport_factory_address
       (RewardsCollector.config (protocolRewardsCollectorInitMsg local))
     = oracleFactoryAddress local
  /\ FeeShare.astroport_factory_address (treasuryInitMsg local)
     = Some "terra18qpjm4zkvqnpjpw0zn0tdr8gdzvt8au35v45xf".
Proof. exact (exports_factory_addresses "local" local in_exports_local). Defined.

(** X11.  No exported configuration fixes an owner, an address provider
    or the code id of the receipt token: all of these are [undefined]. *)
Theorem exports_deployer_fields_unresolved (e : string) (c : Config) :
  (e, c) ∈ exports ->
  Forall (fun a => a = None) (deployer_addresses c)
  /\ RedBank.ma_token_code_id (RedBank.config (redBankInitMsg c)) = None.
Proof.
  revert e c.
  apply exports_ind; (split; [repeat constructor | reflexivity]).
Qed.

Lemma exports_deployer_fields_unresolved_witness :
  Forall (fun a => a = None) (deployer_addresses bombay)
  /\ RedBank.ma_token_code_id (RedBank.config (redBankInitMsg bombay)) = None.
Proof.
  exact (exports_deployer_fields_unresolved "bombay" bombay in_exports_bombay).
Defined.

(** X12.  Every address that an exported configuration resolves is a
    Terra address: ["terra1"] followed by 38 characters of the bech32
    alphabet, with a valid checksum. *)
Theorem exports_addresses_well_formed (e : string) (c : Config) (s : string) :
  (e, c) ∈ exports ->
  Some s ∈ addresses c ->
  terra_address s = true.
Proof.
  intros H Hs.
  assert (Hr : s ∈ resolved_addresses c).
  { unfold resolved_addresses. apply list_elem_of_omap. exists (Some s). auto. }
  revert e c H s Hs Hr.
  apply (exports_ind (fun c => forall s, Some s ∈ addresses c ->
                         s ∈ resolved_addresses c -> terra_address s = true));
    intros s _ Hr;
    match type of Hr with
    | _ ∈ ?l =>
        assert (Hall : Forall (fun x => terra_address x = true) l)
          by (apply forallb_Forall; vm_compute; reflexivity)
    end;
    rewrite Forall_forall in Hall; by apply Hall.
Qed.

Lemma exports_addresses_well_formed_witness :
  terra_address "terra1hfyg0tvuqd5kk4un4luqng2adc88lgt5skxmve" = true.
Proof.
  apply (exports_addresses_well_formed "bombay" bombay _ in_exports_bombay).
  unfold addresses. apply elem_of_app. right. apply elem_of_app. left.
  simpl. do 7 apply list_elem_of_further. apply list_elem_of_here.
Defined.

(** X13.  In every exported configuration the council has a positive
    voting period, a delay that is not negative, a voting period and a
    delay that together fit in the expiration period, and a required
    deposit that is a positive integer. *)
Theorem exports_council_periods_ok (e : string) (c : Config) :
  (e, c) ∈ exports ->
  council_periods_ok (Council.config (councilInitMsg c)).
Proof.
  revert e c.
  apply exports_ind; unfold council_periods_ok; simpl;
    (repeat split; try lia; eexists; split; [vm_compute; reflexivity | lia]).
Qed.

Lemma exports_council_periods_ok_witness :
  council_periods_ok (Council.config (councilInitMsg local)).
Proof. exact (exports_council_periods_ok "local" local in_exports_local). Defined.
